(** * LedgerConnector: the wagmi connector of src/index.ts

    A shallow embedding of the class [LedgerConnector] and of the properties
    of its connection lifecycle.

    The class is asynchronous, single-threaded JavaScript.  Every method is
    modelled as a sequential computation over the state it can touch: the two
    private fields of the instance, the browser's [localStorage], the signals
    the instance emitted and the calls it made to its collaborators (the
    Connect Kit and the provider handle).  A computation either resolves with
    a value or rejects with a thrown value; the effects performed before a
    rejection stay.  Overlapping invocations of two methods are not modelled.

    The collaborators are outside the repository.  What they answer is given
    by an environment [Env] whose answers may depend on every call made so
    far; the address formatter [getAddress] (ethers) and [normalizeChainId]
    (wagmi) are parameters of the development.  The debug logger has no
    effect on the state and is left out.

    Taken for granted: a resolved handle is an object; registering and
    removing a listener, [this.emit] and [removeItem] do not throw, and
    [setItem] throws only where [localStorage] is not defined; a thrown
    value is neither [null] nor [undefined], so reading its [code] does not
    throw. *)

From Stdlib Require Import ZArith List String Bool Lia.
From Stdlib Require HexString.
From stdpp Require Import base option gmap strings list.

Local Open Scope string_scope.
Local Open Scope list_scope.
Local Open Scope Z_scope.

Module LedgerConnector.

(** ** Values *)

(** [SupportedProviderImplementations] of the Connect Kit loader.
    [LedgerConnect] is the Ledger Connect browser extension (the direct
    bridge); [WalletConnect] reaches Ledger Live through the WalletConnect
    relay (the relay-mediated transport). *)
Inductive SupportedProviderImplementations : Set :=
  | LedgerConnect
  | WalletConnect.

Definition impl_eqb (a b : SupportedProviderImplementations) : bool :=
  match a, b with
  | LedgerConnect, LedgerConnect => true
  | WalletConnect, WalletConnect => true
  | _, _ => false
  end.

(** [this.#providerImplementation === x]: the field is [undefined] until
    [connect] stores the result of [checkSupport]. *)
Definition impl_is (field : option SupportedProviderImplementations)
                   (x : SupportedProviderImplementations) : bool :=
  match field with
  | Some i => impl_eqb i x
  | None => false
  end.

(** The [code] property of a thrown value. *)
Inductive JsCode : Set :=
  | CodeUndefined
  | CodeNumber (n : Z)
  | CodeOther (s : string).

(** [code === n] for a number [n]. *)
Definition code_eqb (c : JsCode) (n : Z) : bool :=
  match c with
  | CodeNumber m => Z.eqb m n
  | _ => false
  end.

(** Values that can be thrown, or that a promise can reject with.
    [Foreign] is a value raised by a collaborator, described by what the
    [catch] block of [connect] can observe of it: its [code], whether it is
    an [instanceof Error], and [String(error)].  The other constructors are
    the errors raised by the connector's own code and by the libraries it
    calls synchronously. *)
Inductive Thrown : Set :=
  | Foreign (code : JsCode) (is_Error : bool) (text : string)
  | InvalidAddress (arg : option string)
  | ReferenceError (name : string)
  | UserRejectedRequestError (cause : Thrown)
  | NewError (message : string).

Definition code_of (e : Thrown) : JsCode :=
  match e with
  | Foreign c _ _ => c
  | InvalidAddress _ => CodeOther "INVALID_ARGUMENT"
  | ReferenceError _ => CodeUndefined
  | UserRejectedRequestError _ => CodeNumber 4001
  | NewError _ => CodeUndefined
  end.

Definition instanceof_Error (e : Thrown) : bool :=
  match e with
  | Foreign _ b _ => b
  | _ => true
  end.

(** [String(error)]. *)
Definition String_of (e : Thrown) : string :=
  match e with
  | Foreign _ _ t => t
  | InvalidAddress _ => "Error: invalid address"
  | ReferenceError n => "ReferenceError: " +:+ n +:+ " is not defined"
  | UserRejectedRequestError _ => "UserRejectedRequestError: User rejected request"
  | NewError m => "Error: " +:+ m
  end.

(** The provider handle, [EthereumProvider].  The connector probes [on] and
    [removeListener] before it uses them; [handle] tells handles apart. *)
Record EthereumProvider : Set := {
  handle : nat;
  has_on : bool;
  has_removeListener : bool
}.

Inductive EventName : Set := accountsChanged | chainChanged | disconnect_event.

Inductive Method : Set := eth_requestAccounts | eth_accounts | eth_chainId.

(** A chain id as the transport delivers it: [number | string]. *)
Inductive RawChainId : Set :=
  | RawNumber (n : Z)
  | RawString (s : string).

Record Chain : Set := { chain_id : Z; chain_name : string }.

(** [LedgerConnectorOptions]; an optional member is [None] when left out. *)
Record LedgerConnectorOptions : Type := {
  bridge : option string;
  infuraId : option string;
  rpc : option (gmap Z string);
  enableDebugLogs : option bool;
  shimDisconnect : option bool
}.

(** The default of the constructor's [options] parameter. *)
Definition default_options : LedgerConnectorOptions :=
  {| bridge := None; infuraId := None; rpc := None;
     enableDebugLogs := Some false; shimDisconnect := Some true |}.

(** Truthiness of an optional boolean member. *)
Definition truthy (b : option bool) : bool :=
  match b with Some true => true | _ => false end.

(** Truthiness of [string | null | undefined]: the empty string is falsy. *)
Definition truthy_string (s : option string) : bool :=
  match s with
  | Some EmptyString => false
  | Some _ => true
  | None => false
  end.

(** The [chain] member of a result or of a [change] signal:
    [{ id, unsupported }]. *)
Record ChainData : Set := { data_id : Z; unsupported : bool }.

(** [Required<ConnectorData>], the value [connect] resolves with.
    [provider] is the handle wrapped by [new providers.Web3Provider]. *)
Record ConnectorData : Set := {
  account : string;
  chain : ChainData;
  provider : EthereumProvider
}.

(** Signals of [this.emit]. *)
Inductive Signal : Set :=
  | message (type : string)
  | change (account : option string) (chain : option ChainData)
  | disconnect_signal.

(** Calls to the collaborators, as the instance makes them. *)
Inductive Call : Type :=
  | kit_enableDebugLogs
  | kit_checkSupport (chainId : option Z) (infuraId : option string)
                     (rpc : option (gmap Z string))
  | kit_getProvider
  | provider_on (ev : EventName)
  | provider_removeListener (ev : EventName)
  | provider_request (m : Method)
  | provider_disconnect.

(** ** State and computations *)

(** [localStorage] is [None] where [typeof localStorage === 'undefined']. *)
Record World : Type := {
  this_provider : option EthereumProvider;
  this_providerImplementation : option SupportedProviderImplementations;
  localStorage : option (gmap string string);
  emitted : list Signal;
  calls : list Call
}.

(** A new instance: both private fields are [undefined]. *)
Definition fresh (storage : option (gmap string string)) : World :=
  {| this_provider := None; this_providerImplementation := None;
     localStorage := storage; emitted := []; calls := [] |}.

Inductive Outcome (A : Type) : Type :=
  | Resolved (a : A)
  | Rejected (e : Thrown).
Arguments Resolved {A} a.
Arguments Rejected {A} e.

Definition Async (A : Type) : Type := World -> Outcome A * World.

Definition ret {A} (a : A) : Async A := fun w => (Resolved a, w).

Definition throw {A} (e : Thrown) : Async A := fun w => (Rejected e, w).

Definition bind {A B} (m : Async A) (k : A -> Async B) : Async B :=
  fun w =>
    match m w with
    | (Resolved a, w') => k a w'
    | (Rejected e, w') => (Rejected e, w')
    end.

(** [try { m } catch (error) { handler error }]. *)
Definition try_catch {A} (m : Async A) (handler : Thrown -> Async A) : Async A :=
  fun w =>
    match m w with
    | (Resolved a, w') => (Resolved a, w')
    | (Rejected e, w') => handler e w'
    end.

Notation "x <- m ;; k" := (bind m (fun x => k))
  (at level 100, m at next level, right associativity).
Notation "m ;;; k" := (bind m (fun _ => k))
  (at level 100, right associativity).

Definition gets {A} (f : World -> A) : Async A := fun w => (Resolved (f w), w).

Definition modify (f : World -> World) : Async unit := fun w => (Resolved tt, f w).

Definition when (b : bool) (m : Async unit) : Async unit :=
  if b then m else ret tt.

Definition set_provider (p : option EthereumProvider) (w : World) : World :=
  {| this_provider := p;
     this_providerImplementation := this_providerImplementation w;
     localStorage := localStorage w; emitted := emitted w; calls := calls w |}.

Definition set_providerImplementation
    (i : option SupportedProviderImplementations) (w : World) : World :=
  {| this_provider := this_provider w;
     this_providerImplementation := i;
     localStorage := localStorage w; emitted := emitted w; calls := calls w |}.

Definition set_localStorage (s : option (gmap string string)) (w : World) : World :=
  {| this_provider := this_provider w;
     this_providerImplementation := this_providerImplementation w;
     localStorage := s; emitted := emitted w; calls := calls w |}.

Definition set_emitted (l : list Signal) (w : World) : World :=
  {| this_provider := this_provider w;
     this_providerImplementation := this_providerImplementation w;
     localStorage := localStorage w; emitted := l; calls := calls w |}.

Definition set_calls (l : list Call) (w : World) : World :=
  {| this_provider := this_provider w;
     this_providerImplementation := this_providerImplementation w;
     localStorage := localStorage w; emitted := emitted w; calls := l |}.

(** [this.emit(signal)]: [emitted] lists the signals, the latest first. *)
Definition emit (s : Signal) : Async unit :=
  modify (fun w => set_emitted (s :: emitted w) w).

(** A call to a collaborator: it is recorded ([calls] lists the calls, the
    latest first), and the collaborator answers from the history of calls,
    the present one at its head. *)
Definition call {A} (c : Call) (answer : list Call -> Outcome A) : Async A :=
  fun w => let h := c :: calls w in (answer h, set_calls h w).

(** The environment of an instance. [connectKitPromise] is the promise
    [loadConnectKit()] made by the constructor: it settles once, and every
    [await] of it has the same outcome. *)
Record Env : Type := {
  connectKitPromise : Outcome unit;
  answer_checkSupport : list Call -> Outcome SupportedProviderImplementations;
  answer_getProvider : list Call -> Outcome EthereumProvider;
  answer_accounts : list Call -> Outcome (list string);
  answer_chainId : list Call -> Outcome RawChainId;
  answer_disconnect : list Call -> Outcome unit
}.

Definition silent : list Call -> Outcome unit := fun _ => Resolved tt.

(** The key of the Disconnect Shim Flag. *)
Definition shimDisconnectKey : string := "ledger.shimDisconnect".

(** [localStorage.getItem(key)] where [localStorage] is defined. *)
Definition getItem (key : string) (s : gmap string string) : option string :=
  s !! key.

(** [localStorage.setItem(key, value)]; a [ReferenceError] where the global
    is not defined. *)
Definition setItem (key value : string) : Async unit :=
  fun w =>
    match localStorage w with
    | Some s => (Resolved tt, set_localStorage (Some (<[key := value]> s)) w)
    | None => (Rejected (ReferenceError "localStorage"), w)
    end.

(** [typeof localStorage !== 'undefined' && localStorage.removeItem(key)]. *)
Definition removeItem_if_defined (key : string) : Async unit :=
  modify (fun w =>
    match localStorage w with
    | Some s => set_localStorage (Some (delete key s)) w
    | None => w
    end).

(** The flag as [isAuthorized] reads it:
    [typeof localStorage !== 'undefined' && localStorage.getItem(key)]. *)
Definition shim_flag (storage : option (gmap string string)) : bool :=
  match storage with
  | Some s => truthy_string (getItem shimDisconnectKey s)
  | None => false
  end.

(** The flag is stored: the key is bound in [localStorage]. *)
Definition flag_stored (storage : option (gmap string string)) : Prop :=
  exists s v, storage = Some s /\ s !! shimDisconnectKey = Some v.

(** Transport resolutions in a history: the calls of [connectKit.getProvider]. *)
Definition is_resolution (c : Call) : bool :=
  match c with kit_getProvider => true | _ => false end.

Definition resolutions (h : list Call) : nat :=
  length (List.filter is_resolution h).

(** The RPC requests of a history, the latest first. *)
Definition requests (h : list Call) : list Method :=
  omap (fun c => match c with provider_request m => Some m | _ => None end) h.

(** How often the handler of [ev] was registered with [provider.on], and how
    often it was removed with [provider.removeListener], in a history. *)
Definition registrations (ev : EventName) (h : list Call) : nat :=
  length (List.filter
            (fun c => match c with
                      | provider_on e =>
                          match ev, e with
                          | accountsChanged, accountsChanged
                          | chainChanged, chainChanged
                          | disconnect_event, disconnect_event => true
                          | _, _ => false
                          end
                      | _ => false
                      end) h).

Definition removals (ev : EventName) (h : list Call) : nat :=
  length (List.filter
            (fun c => match c with
                      | provider_removeListener e =>
                          match ev, e with
                          | accountsChanged, accountsChanged
                          | chainChanged, chainChanged
                          | disconnect_event, disconnect_event => true
                          | _, _ => false
                          end
                      | _ => false
                      end) h).

(** What is stored under [key]: [None] where the key is not bound, and
    where [localStorage] is not defined. *)
Definition stored (key : string) (storage : option (gmap string string))
    : option string :=
  storage ≫= (fun s => s !! key).

(** [this.options] as the constructor sets it, index.ts 69-76: the
    parameter [options] defaults, as a whole, to
    [{ shimDisconnect: true, enableDebugLogs: false }]. *)
Definition constructor_options (options : option LedgerConnectorOptions)
    : LedgerConnectorOptions :=
  match options with
  | Some o => o
  | None => default_options
  end.

(** ** The class *)

(** What an instance is constructed with and runs against. *)
Class Setting : Type := {
  (** [getAddress] of ethers: the checksum form of an address, [None] where
      it throws (the argument is not an address). *)
  getAddress : string -> option string;
  (** [normalizeChainId] of wagmi. *)
  normalizeChainId : RawChainId -> Z;
  (** [this.chains] and [this.options], fixed by the constructor. *)
  chains : list Chain;
  options : LedgerConnectorOptions;
  env : Env
}.

Section Connector.

Context {this : Setting}.

(** [getAddress(x)] at the call sites, where [x] is [accounts[0]] and so
    [undefined] for an empty list; ethers throws on what is not a string. *)
Definition getAddress_js (x : option string) : Async string :=
  match x with
  | Some a =>
      match getAddress a with
      | Some c => ret c
      | None => throw (InvalidAddress x)
      end
  | None => throw (InvalidAddress x)
  end.

(** Modelled from the spec: [isChainUnsupported] is a method of the base
    class [Connector] of wagmi, which is not under src/.  The spec has
    [unsupported] = chain id not present in the configured supported-chain
    list. *)
Definition isChainUnsupported (chainId : Z) : bool :=
  negb (existsb (fun x => Z.eqb (chain_id x) chainId) chains).

(** [await this.#connectKitPromise]. *)
Definition await_connectKit : Async unit :=
  fun w => (connectKitPromise env, w).

(** [getProvider()], index.ts 219-229: the handle is asked of the kit only
    while [this.#provider] is not set. *)
Definition getProvider : Async EthereumProvider :=
  cached <- gets this_provider ;;
  match cached with
  | Some p => ret p
  | None =>
      await_connectKit ;;;
      p <- call kit_getProvider (answer_getProvider env) ;;
      modify (set_provider (Some p)) ;;;
      ret p
  end.

(** [getAccount()], index.ts 194-205. *)
Definition getAccount : Async string :=
  getProvider ;;;
  accounts <- call (provider_request eth_requestAccounts) (answer_accounts env) ;;
  getAddress_js (head accounts).

(** [getChainId()], index.ts 207-217. *)
Definition getChainId : Async Z :=
  getProvider ;;;
  chainId <- call (provider_request eth_chainId) (answer_chainId env) ;;
  ret (normalizeChainId chainId).

(** The [try] block of [connect], index.ts 92-146.  The test of the shim
    reads the field [this.#providerImplementation], set a few lines above
    it. *)
Definition connect_try (chainId : option Z) : Async ConnectorData :=
  await_connectKit ;;;
  when (truthy (enableDebugLogs options)) (call kit_enableDebugLogs silent) ;;;
  checkSupportResult <-
    call (kit_checkSupport chainId (infuraId options) (rpc options))
         (answer_checkSupport env) ;;
  modify (set_providerImplementation (Some checkSupportResult)) ;;;
  provider <- getProvider ;;
  when (has_on provider)
    (call (provider_on accountsChanged) silent ;;;
     call (provider_on chainChanged) silent ;;;
     call (provider_on disconnect_event) silent) ;;;
  emit (message "connecting") ;;;
  account <- getAccount ;;
  id <- getChainId ;;
  let unsupported := isChainUnsupported id in
  impl <- gets this_providerImplementation ;;
  when (truthy (shimDisconnect options) && impl_is impl LedgerConnect)
    (setItem shimDisconnectKey "true") ;;;
  ret {| account := account;
         chain := {| data_id := id; unsupported := unsupported |};
         provider := provider |}.

(** The [catch] block of [connect], index.ts 147-159: what is thrown for a
    caught [error]. *)
Definition connect_catch (error : Thrown) : Thrown :=
  if code_eqb (code_of error) 4001 then UserRejectedRequestError error
  else if code_eqb (code_of error) (-32002) then
    (if instanceof_Error error then error else NewError (String_of error))
  else error.

(** [connect({ chainId })], index.ts 89-160. *)
Definition connect (chainId : option Z) : Async ConnectorData :=
  try_catch (connect_try chainId) (fun error => throw (connect_catch error)).

(** [disconnect()], index.ts 162-192.  The handle being an object,
    [!!provider] holds; the removal of the flag is guarded twice by the
    option, as in the source. *)
Definition disconnect : Async unit :=
  provider <- getProvider ;;
  impl <- gets this_providerImplementation ;;
  when (impl_is impl WalletConnect)
    (call provider_disconnect (answer_disconnect env)) ;;;
  when (has_removeListener provider)
    (call (provider_removeListener accountsChanged) silent ;;;
     call (provider_removeListener chainChanged) silent ;;;
     call (provider_removeListener disconnect_event) silent) ;;;
  impl <- gets this_providerImplementation ;;
  when (truthy (shimDisconnect options) && impl_is impl LedgerConnect)
    (when (truthy (shimDisconnect options))
       (removeItem_if_defined shimDisconnectKey)).

(** [isAuthorized()], index.ts 243-267. *)
Definition isAuthorized : Async bool :=
  try_catch
    (storage <- gets localStorage ;;
     if truthy (shimDisconnect options) && shim_flag storage then ret false
     else
       getProvider ;;;
       accounts <- call (provider_request eth_accounts) (answer_accounts env) ;;
       let account := head accounts in
       ret (truthy_string account))
    (fun _ => ret false).

(** The handlers of the transport's events, index.ts 269-292.  A handler
    is synchronous; [getAddress] can throw in the first. *)
Definition onAccountsChanged (accounts : list string) : Async unit :=
  if Nat.eqb (length accounts) 0 then emit disconnect_signal
  else
    a <- getAddress_js (head accounts) ;;
    emit (change (Some a) None).

Definition onChainChanged (chainId : RawChainId) : Async unit :=
  let id := normalizeChainId chainId in
  let unsupported := isChainUnsupported id in
  emit (change None (Some {| data_id := id; unsupported := unsupported |})).

Definition onDisconnect : Async unit :=
  emit disconnect_signal ;;;
  when (truthy (shimDisconnect options))
    (removeItem_if_defined shimDisconnectKey).

(** [instanceof UserRejectedRequestError]. *)
Definition is_UserRejectedRequestError (e : Thrown) : bool :=
  match e with UserRejectedRequestError _ => true | _ => false end.

(** What [localStorage] is after a [connect] that resolved with kind
    [impl]. *)
Definition storage_after_connect (impl : SupportedProviderImplementations)
    (storage : option (gmap string string)) : option (gmap string string) :=
  if truthy (shimDisconnect options) && impl_eqb impl LedgerConnect
  then insert shimDisconnectKey "true" <$> storage
  else storage.

(** What [localStorage] is after a [disconnect] that resolved, [impl] being
    the field [#providerImplementation]. *)
Definition storage_after_disconnect
    (impl : option SupportedProviderImplementations)
    (storage : option (gmap string string)) : option (gmap string string) :=
  if truthy (shimDisconnect options) && impl_is impl LedgerConnect
  then delete shimDisconnectKey <$> storage
  else storage.

(** The uses of an instance: a call of one of its methods, or an event of
    the transport delivered to one of its handlers.  Each runs to its end
    before the next begins. *)
Inductive Invocation : Type :=
  | call_connect (chainId : option Z)
  | call_disconnect
  | call_isAuthorized
  | call_getAccount
  | call_getChainId
  | call_getProvider
  | event_accountsChanged (accounts : list string)
  | event_chainChanged (chainId : RawChainId)
  | event_disconnect.

(** The state an invocation leaves, however it ends. *)
Definition invoke (i : Invocation) (w : World) : World :=
  match i with
  | call_connect chainId => snd (connect chainId w)
  | call_disconnect => snd (disconnect w)
  | call_isAuthorized => snd (isAuthorized w)
  | call_getAccount => snd (getAccount w)
  | call_getChainId => snd (getChainId w)
  | call_getProvider => snd (getProvider w)
  | event_accountsChanged accounts => snd (onAccountsChanged accounts w)
  | event_chainChanged chainId => snd (onChainChanged chainId w)
  | event_disconnect => snd (onDisconnect w)
  end.

(** The state after the invocations of [l], the first of the list first. *)
Definition invoke_all (l : list Invocation) (w : World) : World :=
  foldl (fun w i => invoke i w) w l.

End Connector.

(** ** Collaborators to run the model on

    Instances of the parameters and of the environment, for the concrete
    runs further down. *)

Module Sample.

(** Lower-case addresses and their checksum forms (the examples of EIP-55). *)
Definition checksums : list (string * string) :=
  [ ("0x5aaeb6053f3e94c9b9a09f33669435e7ef1beaed",
     "0x5aAeb6053F3E94C9b9A09f33669435E7Ef1BeAed");
    ("0xfb6916095ca1df60bb79ce92ce3ea74c37c5d359",
     "0xfB6916095ca1df60bB79Ce92cE3Ea74c37c5d359") ].

(** A formatter that knows the addresses of [checksums], in either case,
    and throws on every other string. *)
Definition checksum_of (a : string) : option string :=
  snd <$> List.find (fun p => String.eqb (fst p) a || String.eqb (snd p) a)
                    checksums.

(** Numbers are kept, strings are read as hexadecimal [0x...]. *)
Definition number_or_hex (c : RawChainId) : Z :=
  match c with
  | RawNumber n => n
  | RawString s => HexString.to_Z s
  end.

Definition two_chains : list Chain :=
  [ {| chain_id := 1; chain_name := "Ethereum" |};
    {| chain_id := 137; chain_name := "Polygon" |} ].

Definition wallet : EthereumProvider :=
  {| handle := 1; has_on := true; has_removeListener := true |}.

(** The kit loads and resolves a handle of kind [impl]; the account request
    is answered by [accounts], the chain request by [chainId]. *)
Definition env_of (impl : SupportedProviderImplementations)
               (accounts : Outcome (list string)) (chainId : RawChainId) : Env :=
  {| connectKitPromise := Resolved tt;
     answer_checkSupport := fun _ => Resolved impl;
     answer_getProvider := fun _ => Resolved wallet;
     answer_accounts := fun _ => accounts;
     answer_chainId := fun _ => Resolved chainId;
     answer_disconnect := fun _ => Resolved tt |}.

Definition one_account : Outcome (list string) :=
  Resolved ["0x5aaeb6053f3e94c9b9a09f33669435e7ef1beaed"].

(** The kit loads, but resolving the handle fails with [e]. *)
Definition env_unresolved (e : Thrown) : Env :=
  {| connectKitPromise := Resolved tt;
     answer_checkSupport := fun _ => Resolved WalletConnect;
     answer_getProvider := fun _ => Rejected e;
     answer_accounts := fun _ => one_account;
     answer_chainId := fun _ => Resolved (RawNumber 1);
     answer_disconnect := fun _ => Resolved tt |}.

(** A storage that holds the flag, written by an earlier page. *)
Definition flagged : option (gmap string string) :=
  Some {[ shimDisconnectKey := "true" ]}.

Definition empty_storage : option (gmap string string) := Some ∅.

(** Settings: the default options, so the shim-disconnect option is
    enabled, over the transport of each kind. *)
Definition setting (o : LedgerConnectorOptions) (e : Env) : Setting :=
  {| getAddress := checksum_of; normalizeChainId := number_or_hex;
     chains := two_chains; options := o; env := e |}.

Definition relay : Setting :=
  setting default_options (env_of WalletConnect one_account (RawString "0x1")).

Definition direct : Setting :=
  setting default_options (env_of LedgerConnect one_account (RawString "0x89")).

(** The user declines the account request. *)
Definition declined : Setting :=
  setting default_options
    (env_of WalletConnect
       (Rejected (Foreign (CodeNumber 4001) true "Error: User rejected"))
       (RawString "0x1")).

(** No transport can be resolved. *)
Definition unresolved : Setting :=
  setting default_options
    (env_unresolved (Foreign CodeUndefined true "Error: no provider")).

(** The options of the README: no [shimDisconnect] member. *)
Definition readme_options : LedgerConnectorOptions :=
  {| bridge := None; infuraId := Some "YOUR_INFURA_ID";
     rpc := Some {[ 1 := "https://cloudflare-eth.com/";
                    137 := "https://polygon-rpc.com/" ]};
     enableDebugLogs := Some false; shimDisconnect := None |}.

Definition readme : Setting :=
  setting (constructor_options (Some readme_options))
    (env_of LedgerConnect one_account (RawString "0x89")).

(** The transport answers the account request with no account. *)
Definition no_account : Setting :=
  setting default_options (env_of WalletConnect (Resolved []) (RawString "0x1")).

(** The relay refuses to disconnect. *)
Definition stuck : Setting :=
  setting default_options
    {| connectKitPromise := Resolved tt;
       answer_checkSupport := fun _ => Resolved WalletConnect;
       answer_getProvider := fun _ => Resolved wallet;
       answer_accounts := fun _ => one_account;
       answer_chainId := fun _ => Resolved (RawString "0x1");
       answer_disconnect :=
         fun _ => Rejected (Foreign CodeUndefined true "Error: relay down") |}.

(** A storage in use by something else. *)
Definition themed : option (gmap string string) :=
  Some {[ "theme" := "dark" ]}.

(** A session, its end, and a check for a silent reconnection. *)
Definition session : list Invocation :=
  [call_connect None; event_chainChanged (RawString "0x89");
   call_disconnect; call_isAuthorized].

(** What [connect] resolves with under [relay] and [direct], on the chain
    [chainId]. *)
Definition data (chainId : Z) : ConnectorData :=
  {| account := "0x5aAeb6053F3E94C9b9A09f33669435E7Ef1BeAed";
     chain := {| data_id := chainId; unsupported := false |};
     provider := wallet |}.

(** The state of a new instance after [connect()], then after
    [disconnect()], then after a second [connect()]. *)
Definition after_connect (s : Setting) storage : World :=
  snd (connect (this := s) None (fresh storage)).

Definition after_disconnect (s : Setting) storage : World :=
  snd (disconnect (this := s) (after_connect s storage)).

Definition after_reconnect (s : Setting) storage : World :=
  snd (connect (this := s) None (after_disconnect s storage)).

End Sample.

(** ** Properties *)

Ltac unfold_ops :=
  unfold connect, connect_try, disconnect, isAuthorized, onAccountsChanged,
    onChainChanged, onDisconnect, getAccount, getChainId, getProvider,
    getAddress_js, await_connectKit, setItem, removeItem_if_defined,
    try_catch, bind, when, call, emit, modify, gets, ret, throw, silent,
    set_provider, set_providerImplementation, set_localStorage, set_emitted,
    set_calls in *.

(** Runs a computation symbolically: every answer of the environment and
    every test of the code is split into its cases. *)
Ltac run :=
  unfold_ops; simpl in *;
  repeat (case_match; simpl in *; simplify_eq);
  simpl in *; simplify_eq.

(** Merges the equations that two runs have recorded of the same answer. *)
Ltac merge_equations :=
  repeat match goal with
         | H1 : ?x = _, H2 : ?x = _ |- _ => rewrite H1 in H2; simplify_eq
         end.

(** Rewrites the goal with the equations the run has recorded. *)
Ltac use_equations :=
  repeat match goal with
         | H : ?x = _ |- context [?x] => rewrite H
         end; simpl.

Section Properties.

Context {this : Setting}.

Lemma flag_stored_insert (s : gmap string string) v :
  flag_stored (Some (<[shimDisconnectKey := v]> s)).
Proof. exists (<[shimDisconnectKey := v]> s), v. by rewrite lookup_insert_eq. Qed.

Lemma flag_stored_delete (s : gmap string string) :
  ~ flag_stored (Some (delete shimDisconnectKey s)).
Proof. intros (s' & v & [= <-] & H). by rewrite lookup_delete_eq in H. Qed.

Lemma flag_stored_undefined : ~ flag_stored None.
Proof. by intros (s & v & ? & _). Qed.

Lemma shim_flag_written (s : gmap string string) :
  shim_flag (Some (<[shimDisconnectKey := "true"]> s)) = true.
Proof. unfold shim_flag, getItem. by rewrite lookup_insert_eq. Qed.

(** Every way in which the [try] block of [connect] resolves. *)
Lemma connect_try_resolved chainId w r w' :
  connect_try chainId w = (Resolved r, w') ->
  exists impl pre a rest raw,
    this_providerImplementation w' = Some impl /\
    this_provider w' = Some (provider r) /\
    (forall p, this_provider w = Some p -> provider r = p) /\
    calls w' =
      provider_request eth_chainId :: provider_request eth_requestAccounts :: pre /\
    calls w `suffix_of` pre /\
    resolutions pre =
      (resolutions (calls w) +
       match this_provider w with Some _ => 0 | None => 1 end)%nat /\
    requests pre = requests (calls w) /\
    answer_accounts env (provider_request eth_requestAccounts :: pre)
      = Resolved (a :: rest) /\
    getAddress a = Some (account r) /\
    answer_chainId env (calls w') = Resolved raw /\
    chain r = {| data_id := normalizeChainId raw;
                 unsupported := isChainUnsupported (normalizeChainId raw) |} /\
    emitted w' = message "connecting" :: emitted w /\
    localStorage w' = storage_after_connect impl (localStorage w) /\
    (truthy (shimDisconnect options) && impl_eqb impl LedgerConnect = true ->
       is_Some (localStorage w)).
Proof.
  unfold storage_after_connect. intros H.
  run.
  all: destruct (truthy (shimDisconnect options)) eqn:Hshim; simpl in *.
  all: match goal with
       | H : head ?l = Some _ |- _ => destruct l; simpl in H; simplify_eq
       end.
  all: do 5 eexists; split_and!; try done; eauto.
  all: try (intros ? ?; congruence).
  all: try (repeat apply suffix_cons_r; done).
  all: unfold resolutions; simpl; try lia.
  all: use_equations; eauto; congruence.
Qed.

Lemma connect_resolved chainId w r w' :
  connect chainId w = (Resolved r, w') <->
  connect_try chainId w = (Resolved r, w').
Proof.
  unfold connect, try_catch, throw.
  destruct (connect_try chainId w) as [[a|e] w1]; split; congruence.
Qed.

Lemma connect_rejected chainId w e' w' :
  connect chainId w = (Rejected e', w') <->
  exists e, connect_try chainId w = (Rejected e, w') /\ e' = connect_catch e.
Proof.
  unfold connect, try_catch, throw.
  destruct (connect_try chainId w) as [[a|e] w1]; split.
  - congruence.
  - intros (e & [=] & _).
  - intros [= <- <-]. by exists e.
  - intros (e0 & [= <- <-] & ->). done.
Qed.

(** What the [try] block of [connect] can reject with: the rejection of a
    collaborator, the error of [getAddress], or the missing [localStorage]. *)
Lemma connect_try_rejected chainId w e w' :
  connect_try chainId w = (Rejected e, w') ->
  connectKitPromise env = Rejected e \/
  (exists h, answer_checkSupport env h = Rejected e) \/
  (exists h, answer_getProvider env h = Rejected e) \/
  (exists h, answer_accounts env h = Rejected e) \/
  (exists x, e = InvalidAddress x) \/
  (exists h, answer_chainId env h = Rejected e) \/
  e = ReferenceError "localStorage".
Proof. intros H. run; eauto 10. Qed.

(** The three cases of the [catch] block. *)
Lemma connect_catch_4001 e :
  code_of e = CodeNumber 4001 -> connect_catch e = UserRejectedRequestError e.
Proof. unfold connect_catch. by intros ->. Qed.

Lemma connect_catch_32002 e :
  code_of e = CodeNumber (-32002) ->
  connect_catch e = if instanceof_Error e then e else NewError (String_of e).
Proof. unfold connect_catch. by intros ->. Qed.

Lemma connect_catch_other e :
  code_of e <> CodeNumber 4001 -> code_of e <> CodeNumber (-32002) ->
  connect_catch e = e.
Proof.
  unfold connect_catch, code_eqb. intros H1 H2.
  destruct (code_of e) as [|n|]; try done.
  destruct (Z.eqb_spec n 4001) as [->|_]; [done|].
  destruct (Z.eqb_spec n (-32002)) as [->|_]; done.
Qed.

(** A rejection of the account request reaches the [catch] block as it is,
    whatever happened before it in the [try] block. *)
Lemma getAccount_rejected_request w p e :
  this_provider w = Some p ->
  answer_accounts env (provider_request eth_requestAccounts :: calls w)
    = Rejected e ->
  getAccount w
    = (Rejected e, set_calls (provider_request eth_requestAccounts :: calls w) w).
Proof. intros Hp He. unfold_ops. rewrite Hp. simpl. rewrite He. by rewrite Hp. Qed.

(** C1 (amended): after a successful [connect] the instance has recorded the
    transport kind that [checkSupport] resolved.  If the shim-disconnect
    option is enabled and that kind is the direct bridge, [LedgerConnect],
    the flag has been written and is stored; if the kind is the
    relay-mediated [WalletConnect], or the option is off, [connect] has left
    [localStorage] as it was. *)
Theorem connect_shim_flag chainId w r w' :
  connect chainId w = (Resolved r, w') ->
  exists impl,
    this_providerImplementation w' = Some impl /\
    (truthy (shimDisconnect options) = true -> impl = LedgerConnect ->
       (exists s, localStorage w = Some s /\
                  localStorage w' = Some (<[shimDisconnectKey := "true"]> s)) /\
       flag_stored (localStorage w') /\ shim_flag (localStorage w') = true) /\
    (impl = WalletConnect -> localStorage w' = localStorage w) /\
    (truthy (shimDisconnect options) = false -> localStorage w' = localStorage w).
Proof.
  intros H%connect_resolved%connect_try_resolved.
  destruct H as (impl & pre & a & rest & raw & Himpl & _ & _ & _ & _ & _ & _
                 & _ & _ & _ & _ & _ & Hst & Hdef).
  exists impl. split; [done|]. unfold storage_after_connect in Hst.
  split_and!.
  - intros Hshim ->. rewrite Hshim in *. simpl in *.
    destruct Hdef as [s Hs]; [done|]. rewrite Hs in Hst. simpl in Hst.
    rewrite Hst. split_and!.
    + by exists s.
    + apply flag_stored_insert.
    + apply shim_flag_written.
  - intros ->. by rewrite andb_false_r in Hst.
  - intros Hshim. by rewrite Hshim in Hst.
Qed.



(** Where the first address has no checksum form, [getAddress] throws in the
    handler and no signal is emitted. *)
Lemma onAccountsChanged_invalid a rest w :
  getAddress a = None ->
  onAccountsChanged (a :: rest) w = (Rejected (InvalidAddress (Some a)), w).
Proof. intros Hc. unfold_ops. simpl. by rewrite Hc. Qed.

Lemma isChainUnsupported_spec chainId :
  isChainUnsupported chainId = true <-> chainId ∉ map chain_id chains.
Proof.
  unfold isChainUnsupported. rewrite negb_true_iff, <- not_true_iff_false.
  apply not_iff_compat. rewrite existsb_exists, list_elem_of_In, in_map_iff.
  split.
  - intros (x & Hx & Heq%Z.eqb_eq). by exists x.
  - intros (x & <- & Hx). exists x. split; [done|]. apply Z.eqb_refl.
Qed.

(** C6: [isChainUnsupported] holds of a chain id iff it is the id of no
    configured chain; the handler of [chainChanged] emits [change] with the
    normalized id and that verdict on it; and a [connect] that resolves
    carries the normalized answer of the chain request and the same verdict
    on it. *)
Theorem unsupported_iff_not_configured :
  (forall chainId,
     isChainUnsupported chainId = true <-> chainId ∉ map chain_id chains) /\
  (forall raw w,
     onChainChanged raw w
       = (Resolved tt,
          set_emitted
            (change None
               (Some {| data_id := normalizeChainId raw;
                        unsupported :=
                          isChainUnsupported (normalizeChainId raw) |})
             :: emitted w) w)) /\
  (forall chainId w r w',
     connect chainId w = (Resolved r, w') ->
     (exists raw, answer_chainId env (calls w') = Resolved raw /\
                  data_id (chain r) = normalizeChainId raw) /\
     (unsupported (chain r) = true <->
        data_id (chain r) ∉ map chain_id chains)).
Proof.
  split_and!.
  - apply isChainUnsupported_spec.
  - done.
  - intros chainId w r w' H%connect_resolved%connect_try_resolved.
    destruct H as (impl & pre & a & rest & raw & _ & _ & _ & _ & _ & _ & _
                   & _ & _ & Hraw & -> & _).
    simpl. split; [by exists raw|]. apply isChainUnsupported_spec.
Qed.

(** C9: a [connect] that resolves has made the [eth_requestAccounts]
    request (followed by the chain request only), the request was answered
    with a non-empty list, and the [account] of the result is the checksum
    form of the first address of that list. *)
Theorem connect_account_checksummed chainId w r w' :
  connect chainId w = (Resolved r, w') ->
  exists pre a rest,
    calls w' =
      provider_request eth_chainId :: provider_request eth_requestAccounts :: pre /\
    calls w `suffix_of` pre /\
    answer_accounts env (provider_request eth_requestAccounts :: pre)
      = Resolved (a :: rest) /\
    getAddress a = Some (account r).
Proof.
  intros H%connect_resolved%connect_try_resolved.
  destruct H as (impl & pre & a & rest & raw & _ & _ & _ & Hcalls & Hsuf & _
                 & _ & Hans & Hacc & _).
  by exists pre, a, rest.
Qed.

Lemma onDisconnect_result w :
  onDisconnect w
    = (Resolved tt,
       let w1 := set_emitted (disconnect_signal :: emitted w) w in
       if truthy (shimDisconnect options)
       then match localStorage w with
            | Some s => set_localStorage (Some (delete shimDisconnectKey s)) w1
            | None => w1
            end
       else w1).
Proof. unfold_ops. simpl. by destruct (truthy (shimDisconnect options)). Qed.

(** C10: the handler of [accountsChanged] run on an empty list emits
    [disconnect] and leaves [localStorage] as it is; neither it (on any
    list) nor the handler of [chainChanged] ever changes [localStorage];
    the handler of the transport's [disconnect] event, with the option
    enabled, removes the flag. *)
Theorem only_onDisconnect_clears_flag :
  (forall w,
     exists w', onAccountsChanged [] w = (Resolved tt, w') /\
                emitted w' = disconnect_signal :: emitted w /\
                localStorage w' = localStorage w) /\
  (forall accounts w,
     localStorage (snd (onAccountsChanged accounts w)) = localStorage w) /\
  (forall raw w,
     localStorage (snd (onChainChanged raw w)) = localStorage w) /\
  (forall w,
     truthy (shimDisconnect options) = true ->
     ~ flag_stored (localStorage (snd (onDisconnect w))) /\
     localStorage (snd (onDisconnect w))
       = delete shimDisconnectKey <$> localStorage w).
Proof.
  split_and!.
  - intros w. by eexists.
  - intros accounts w. by run.
  - done.
  - intros w Hshim. rewrite onDisconnect_result, Hshim. simpl.
    destruct (localStorage w) as [s|] eqn:Hs; simpl; rewrite ?Hs; simpl.
    + split; [apply flag_stored_delete|done].
    + split; [apply flag_stored_undefined|done].
Qed.

(** With the handle cached, no method resolves the transport again, and
    the cache is kept, however the method ends. *)
Lemma getProvider_cached w p :
  this_provider w = Some p -> getProvider w = (Resolved p, w).
Proof. intros Hp. unfold_ops. by rewrite Hp. Qed.

Lemma connect_keeps_cache chainId w p o w' :
  this_provider w = Some p -> connect chainId w = (o, w') ->
  this_provider w' = Some p /\ resolutions (calls w') = resolutions (calls w).
Proof. intros Hp H. run; done. Qed.

Lemma disconnect_keeps_cache w p o w' :
  this_provider w = Some p -> disconnect w = (o, w') ->
  this_provider w' = Some p /\
  resolutions (calls w') = resolutions (calls w) /\
  requests (calls w') = requests (calls w).
Proof. intros Hp H. run; done. Qed.

(** Every way in which [disconnect] resolves. *)
Lemma disconnect_resolved w u w' :
  disconnect w = (Resolved u, w') ->
  exists p,
    this_provider w' = Some p /\
    (forall q, this_provider w = Some q -> p = q) /\
    (this_provider w = None ->
       answer_getProvider env (kit_getProvider :: calls w) = Resolved p) /\
    this_providerImplementation w' = this_providerImplementation w /\
    emitted w' = emitted w /\
    localStorage w'
      = storage_after_disconnect (this_providerImplementation w) (localStorage w) /\
    (provider_disconnect ∈ calls w' ->
       provider_disconnect ∈ calls w \/
       impl_is (this_providerImplementation w) WalletConnect = true).
Proof.
  unfold storage_after_disconnect. intros H. run.
  all: eexists; split_and!; try done.
  all: try (intros ? ?; congruence).
  all: try (destruct (truthy (shimDisconnect options)); simpl in *; congruence).
  all: rewrite ?elem_of_cons; intros; destruct_or?; try done; eauto.
  all: by use_equations.
Qed.

Lemma shim_flag_not_stored storage :
  ~ flag_stored storage -> shim_flag storage = false.
Proof.
  unfold shim_flag, getItem. destruct storage as [s|]; [|done].
  destruct (s !! shimDisconnectKey) as [v|] eqn:Hv; [|done].
  intros []. by exists s, v.
Qed.

(** C2 (amended): a [disconnect] that resolves, with the shim-disconnect
    option enabled, has removed the flag when the kind recorded by the
    instance is the direct bridge [LedgerConnect], and the flag is then
    absent; under any other kind, or none, it has left [localStorage] as it
    was. *)
Theorem disconnect_shim_flag w u w' :
  disconnect w = (Resolved u, w') ->
  truthy (shimDisconnect options) = true ->
  (this_providerImplementation w = Some LedgerConnect ->
     localStorage w' = delete shimDisconnectKey <$> localStorage w /\
     ~ flag_stored (localStorage w') /\ shim_flag (localStorage w') = false) /\
  (this_providerImplementation w <> Some LedgerConnect ->
     localStorage w' = localStorage w).
Proof.
  intros (p & _ & _ & _ & _ & _ & Hst & _)%disconnect_resolved Hshim.
  unfold storage_after_disconnect in Hst. rewrite Hshim in Hst.
  split.
  - intros Himpl. rewrite Himpl in Hst. simpl in Hst.
    assert (~ flag_stored (localStorage w')) as Hno.
    { rewrite Hst. destruct (localStorage w); simpl;
        [apply flag_stored_delete | apply flag_stored_undefined]. }
    split_and!; [done|done|]. by apply shim_flag_not_stored.
  - intros Himpl. rewrite Hst.
    destruct (this_providerImplementation w) as [[]|]; done.
Qed.


(** C7: on an instance that has no handle yet, let [connect] resolve, then
    call [disconnect] and [connect] again, however these two end.  The
    transport was resolved once, by the first [connect]: the later calls
    found the handle in the cache.  Each [connect] that resolved issued its
    own account request and chain request, and [disconnect] issued none. *)
Theorem reconnect_resolves_once c1 c2 w0 r1 w1 o2 w2 o3 w3 :
  this_provider w0 = None ->
  connect c1 w0 = (Resolved r1, w1) ->
  disconnect w1 = (o2, w2) ->
  connect c2 w2 = (o3, w3) ->
  resolutions (calls w1) = S (resolutions (calls w0)) /\
  resolutions (calls w3) = S (resolutions (calls w0)) /\
  this_provider w3 = Some (provider r1) /\
  requests (calls w1)
    = eth_chainId :: eth_requestAccounts :: requests (calls w0) /\
  requests (calls w2) = requests (calls w1) /\
  (forall r3, o3 = Resolved r3 ->
     provider r3 = provider r1 /\
     requests (calls w3)
       = eth_chainId :: eth_requestAccounts :: requests (calls w2)).
Proof.
  intros Hfresh H1 H2 H3.
  apply connect_resolved, connect_try_resolved in H1.
  destruct H1 as (impl & pre & a & rest & raw & _ & Hp1 & _ & Hc1 & _ & Hres1
                  & Hreq1 & _).
  destruct (disconnect_keeps_cache _ _ _ _ Hp1 H2) as (Hp2 & Hres2 & Hreq2).
  destruct (connect_keeps_cache _ _ _ _ _ Hp2 H3) as (Hp3 & Hres3).
  assert (resolutions (calls w1) = S (resolutions (calls w0))) as Hone.
  { rewrite Hc1. unfold resolutions in *. simpl. rewrite Hres1, Hfresh. lia. }
  split_and!; try done.
  - by rewrite Hres3, Hres2.
  - rewrite Hc1. simpl. by rewrite Hreq1.
  - intros r3 ->.
    apply connect_resolved, connect_try_resolved in H3.
    destruct H3 as (impl3 & pre3 & a3 & rest3 & raw3 & _ & _ & Hsame & Hc3 & _
                    & _ & Hreq3 & _).
    split; [by apply Hsame|]. rewrite Hc3. simpl. by rewrite Hreq3.
Qed.

Lemma truthy_string_head (accounts : list string) :
  truthy_string (head accounts) = true <->
  exists a rest, accounts = a :: rest /\ a <> "".
Proof.
  destruct accounts as [|[|c a] rest]; simpl; split; try done.
  - by intros (a & rest' & [=] & _).
  - by intros (a & rest' & [= <- _] & Ha).
  - intros _. by eexists _, _.
Qed.

(** C3: [isAuthorized] always resolves, never rejects.  With the
    shim-disconnect option enabled and the flag read from [localStorage]
    it resolves with [false] and the state, the calls to the transport
    included, is as before.  Otherwise it acquires the handle and requests
    [eth_accounts]; it resolves with [true] iff the handle was acquired and
    the request was answered with a list that starts with an account (a
    non-empty string), and so with [false] whenever either of them
    rejected. *)
Theorem isAuthorized_never_rejects w :
  exists b w',
    isAuthorized w = (Resolved b, w') /\
    (truthy (shimDisconnect options) = true ->
     shim_flag (localStorage w) = true ->
     b = false /\ w' = w) /\
    (truthy (shimDisconnect options) && shim_flag (localStorage w) = false ->
     (forall p w1,
        getProvider w = (Resolved p, w1) ->
        w' = set_calls (provider_request eth_accounts :: calls w1) w1) /\
     (b = true <->
        exists p w1 a rest,
          getProvider w = (Resolved p, w1) /\
          answer_accounts env (provider_request eth_accounts :: calls w1)
            = Resolved (a :: rest) /\
          a <> "") /\
     (forall e w1, getProvider w = (Rejected e, w1) -> b = false) /\
     (forall p w1 e,
        getProvider w = (Resolved p, w1) ->
        answer_accounts env (provider_request eth_accounts :: calls w1)
          = Rejected e ->
        b = false)).
Proof.
  unfold isAuthorized, try_catch, bind, gets, call. simpl.
  destruct (truthy (shimDisconnect options) && shim_flag (localStorage w))
    eqn:Hcond.
  - exists false, w. split; [done|]. split; [done|]. done.
  - destruct (getProvider w) as [[p|e] w1] eqn:Hg.
    + destruct (answer_accounts env (provider_request eth_accounts :: calls w1))
        as [accounts|e] eqn:Ha.
      * eexists _, _. split; [reflexivity|]. split.
        { intros H1 H2. by rewrite H1, H2 in Hcond. }
        intros _. split_and!.
        -- by intros ? ? [= <- <-].
        -- rewrite truthy_string_head. split.
           ++ intros (a & rest & -> & Hne). by exists p, w1, a, rest.
           ++ intros (p' & w1' & a & rest & [= <- <-] & Hans & Hne).
              rewrite Ha in Hans. injection Hans as ->. by exists a, rest.
        -- done.
        -- intros ? ? ? [= <- <-]. by rewrite Ha.
      * exists false. eexists. split; [reflexivity|]. split.
        { intros H1 H2. by rewrite H1, H2 in Hcond. }
        intros _. split_and!; try done.
        -- by intros ? ? [= <- <-].
        -- split; [done|].
           intros (p' & w1' & a & rest & [= <- <-] & Hans & _).
           by rewrite Ha in Hans.
    + exists false, w1. split; [done|]. split.
      { intros H1 H2. by rewrite H1, H2 in Hcond. }
      intros _. split_and!; try done. split; [done|].
      by intros (p' & w1' & a & rest & [=] & _).
Qed.

End Properties.

(** ** Further properties of the methods *)

Section Methods.

Context {this : Setting}.

(** X1: the calls of a [connect] that resolved, the latest first: the two
    discovery requests, before them the three registrations exactly when the
    handle has [on], before them the resolution exactly when no handle was
    cached, before that [checkSupport], and first the kit's
    [enableDebugLogs] exactly when the option is set. *)
Theorem connect_resolved_calls chainId w r w' :
  connect chainId w = (Resolved r, w') ->
  calls w' =
    [provider_request eth_chainId; provider_request eth_requestAccounts]
    ++ (if has_on (provider r)
        then [provider_on disconnect_event; provider_on chainChanged;
              provider_on accountsChanged]
        else [])
    ++ match this_provider w with Some _ => [] | None => [kit_getProvider] end
    ++ [kit_checkSupport chainId (infuraId options) (rpc options)]
    ++ (if truthy (enableDebugLogs options) then [kit_enableDebugLogs] else [])
    ++ calls w.
Proof.
  intros H%connect_resolved. run; by use_equations.
Qed.

(** X2: the calls of a [disconnect] that resolved, the latest first: the
    three removals exactly when the handle has [removeListener], before them
    the transport's [disconnect] exactly when the recorded kind is
    [WalletConnect], and first the resolution exactly when no handle was
    cached. *)
Theorem disconnect_resolved_calls w u w' :
  disconnect w = (Resolved u, w') ->
  exists p,
    this_provider w' = Some p /\
    calls w' =
      (if has_removeListener p
       then [provider_removeListener disconnect_event;
             provider_removeListener chainChanged;
             provider_removeListener accountsChanged]
       else [])
      ++ (if impl_is (this_providerImplementation w) WalletConnect
          then [provider_disconnect] else [])
      ++ match this_provider w with Some _ => [] | None => [kit_getProvider] end
      ++ calls w.
Proof.
  intros H. run; eexists; (split; [first [reflexivity | eassumption]|]);
    use_equations; congruence.
Qed.

(** X3: a [disconnect] that rejects has removed no listener, has emitted
    nothing and has left [localStorage] and the recorded kind as they were;
    the flag is not cleared. *)
Theorem disconnect_rejected_frame w e w' :
  disconnect w = (Rejected e, w') ->
  localStorage w' = localStorage w /\
  emitted w' = emitted w /\
  this_providerImplementation w' = this_providerImplementation w /\
  (forall ev, removals ev (calls w') = removals ev (calls w)) /\
  (connectKitPromise env = Rejected e \/
   answer_getProvider env (kit_getProvider :: calls w) = Rejected e \/
   (impl_is (this_providerImplementation w) WalletConnect = true /\
    exists h, answer_disconnect env (provider_disconnect :: h) = Rejected e)).
Proof.
  intros H. run; split_and!; try done; eauto 10.
Qed.

(** X4: a [connect] that rejects has left [localStorage] as it was, and no
    [connect], however it ends, removes a listener or calls the transport's
    [disconnect]. *)
Theorem connect_rejected_frame chainId w o w' :
  connect chainId w = (o, w') ->
  (forall e, o = Rejected e -> localStorage w' = localStorage w) /\
  (forall ev, removals ev (calls w') = removals ev (calls w)) /\
  (provider_disconnect ∈ calls w' -> provider_disconnect ∈ calls w).
Proof.
  intros H. run; split_and!; try done.
  all: rewrite ?elem_of_cons; intros; destruct_or?; done.
Qed.

(** X5: [connect] writes the flag without testing for [localStorage].  Let
    a [connect] resolve where the storage is defined; run where it is not,
    the same [connect] rejects with a [ReferenceError] when the option is
    enabled and the kind is [LedgerConnect] (every other effect being the
    same), and resolves all the same otherwise. *)
Theorem connect_without_localStorage chainId w r w' :
  connect chainId w = (Resolved r, w') ->
  connect chainId (set_localStorage None w)
    = (if truthy (shimDisconnect options)
          && impl_is (this_providerImplementation w') LedgerConnect
       then Rejected (ReferenceError "localStorage")
       else Resolved r,
       set_localStorage None w').
Proof.
  intros H%connect_resolved.
  unfold connect, try_catch.
  destruct (connect_try chainId (set_localStorage None w)) as [o w2] eqn:H2.
  run; merge_equations; use_equations; try done.
  all: destruct (truthy (shimDisconnect options)); simpl in *; congruence.
Qed.

(** X6: [getProvider] caches what it resolved: called again it resolves
    with the same handle and asks nothing of the kit.  A resolution that
    failed is not cached, and the next call asks the kit again. *)
Theorem getProvider_caches_success_only w :
  (forall p w1,
     getProvider w = (Resolved p, w1) ->
     this_provider w1 = Some p /\ getProvider w1 = (Resolved p, w1)) /\
  (forall e w1,
     getProvider w = (Rejected e, w1) ->
     this_provider w1 = None /\
     (forall u, connectKitPromise env = Resolved u ->
        calls (snd (getProvider w1)) = kit_getProvider :: calls w1)).
Proof.
  split.
  - intros p w1 H. run; use_equations; done.
  - intros e w1 H. run; split; try done; intros; run; done.
Qed.

(** X7: [getAccount] changes neither [localStorage] nor the signals.  It
    resolves only with the checksum form of the first account of the answer
    to [eth_requestAccounts]; it rejects when the handle cannot be had, when
    the request is rejected, and, with the error of [getAddress], when the
    answer has no first account or one without a checksum form. *)
Theorem getAccount_outcomes w o w' :
  getAccount w = (o, w') ->
  localStorage w' = localStorage w /\
  emitted w' = emitted w /\
  (forall a, o = Resolved a ->
     exists h x rest,
       calls w' = provider_request eth_requestAccounts :: h /\
       answer_accounts env (calls w') = Resolved (x :: rest) /\
       getAddress x = Some a) /\
  (forall e, o = Rejected e ->
     connectKitPromise env = Rejected e \/
     answer_getProvider env (calls w') = Rejected e \/
     answer_accounts env (calls w') = Rejected e \/
     exists accounts,
       answer_accounts env (calls w') = Resolved accounts /\
       e = InvalidAddress (head accounts) /\
       (head accounts ≫= getAddress) = None).
Proof.
  intros H. run; split_and!; try done; intros; simplify_eq.
  all: try match goal with
           | H : head ?l = Some _ |- _ => destruct l; simpl in H; simplify_eq
           end.
  all: try (by eexists _, _, _).
  all: eauto 10.
  all: right; right; right; eexists; split_and!; try done; simpl;
       by use_equations.
Qed.

(** X8: [getChainId] changes neither [localStorage] nor the signals, and
    resolves only with the normalized answer to [eth_chainId], which is its
    latest call. *)
Theorem getChainId_outcomes w o w' :
  getChainId w = (o, w') ->
  localStorage w' = localStorage w /\
  emitted w' = emitted w /\
  (forall n, o = Resolved n ->
     exists h raw,
       calls w' = provider_request eth_chainId :: h /\
       answer_chainId env (calls w') = Resolved raw /\
       n = normalizeChainId raw) /\
  (forall e, o = Rejected e ->
     connectKitPromise env = Rejected e \/
     answer_getProvider env (calls w') = Rejected e \/
     answer_chainId env (calls w') = Rejected e).
Proof.
  intros H. run; split_and!; try done; intros; simplify_eq; eauto 10.
Qed.

Lemma code_eqb_spec c n :
  reflect (c = CodeNumber n) (code_eqb c n).
Proof.
  destruct c as [|m|]; simpl; try (constructor; discriminate).
  destruct (Z.eqb_spec m n) as [->|Hne]; constructor; congruence.
Qed.

(** X9: a rejection of [connect] is a [UserRejectedRequestError] exactly
    when the [try] block threw a value with code 4001, and that value is
    then its cause. *)
Theorem connect_user_rejection_iff chainId w e' w' :
  connect chainId w = (Rejected e', w') ->
  (is_UserRejectedRequestError e' = true <->
   exists e, connect_try chainId w = (Rejected e, w') /\
             code_of e = CodeNumber 4001 /\
             e' = UserRejectedRequestError e).
Proof.
  intros (e & Htry & ->)%connect_rejected. split.
  - intros Hkind. exists e. split; [done|].
    assert (code_of e = CodeNumber 4001) as Hc.
    { destruct (code_eqb_spec (code_of e) 4001) as [|Hne]; [done|].
      destruct (code_eqb_spec (code_of e) (-32002)) as [Hbusy|Hne'].
      - rewrite (connect_catch_32002 _ Hbusy) in Hkind.
        destruct e; simpl in *; try done. by destruct is_Error.
      - rewrite (connect_catch_other _ Hne Hne') in Hkind.
        by destruct e. }
    split; [done|]. by apply connect_catch_4001.
  - intros (e0 & Htry0 & Hc & ->). done.
Qed.

(** X10: [isAuthorized] never changes [localStorage], the signals or the
    recorded kind, and the only request it can make is one [eth_accounts]:
    it never asks with [eth_requestAccounts]. *)
Theorem isAuthorized_frame w o w' :
  isAuthorized w = (o, w') ->
  localStorage w' = localStorage w /\
  emitted w' = emitted w /\
  this_providerImplementation w' = this_providerImplementation w /\
  (requests (calls w') = requests (calls w) \/
   requests (calls w') = eth_accounts :: requests (calls w)).
Proof. intros H. run; split_and!; auto. Qed.

(** X11: [connect] emits nothing but the one [connecting] message, and
    emits it before it makes a request: a [connect] that has emitted
    nothing has made no request. *)
Theorem connect_emits_connecting_first chainId w o w' :
  connect chainId w = (o, w') ->
  (emitted w' = emitted w /\ requests (calls w') = requests (calls w)) \/
  emitted w' = message "connecting" :: emitted w.
Proof. intros H. run; auto. Qed.

Lemma connect_registrations chainId w r w' ev :
  connect chainId w = (Resolved r, w') ->
  registrations ev (calls w')
    = ((if has_on (provider r) then 1 else 0) + registrations ev (calls w))%nat /\
  removals ev (calls w') = removals ev (calls w).
Proof. intros H. run; use_equations; by destruct ev. Qed.

Lemma disconnect_removals w u w' ev :
  disconnect w = (Resolved u, w') ->
  exists p,
    this_provider w' = Some p /\
    removals ev (calls w')
      = ((if has_removeListener p then 1 else 0) + removals ev (calls w))%nat /\
    registrations ev (calls w') = registrations ev (calls w).
Proof.
  intros H. run; eexists; (split; [first [reflexivity | eassumption]|]);
    use_equations; by destruct ev.
Qed.

(** X12: [connect] registers the handlers whether or not they are
    registered already.  After two [connect]s and one [disconnect], all
    resolved, on a handle that has [on] and [removeListener], each handler
    was registered twice and removed once. *)
Theorem reconnect_registers_again c1 c2 w0 r1 w1 r2 w2 u w3 ev :
  connect c1 w0 = (Resolved r1, w1) ->
  connect c2 w1 = (Resolved r2, w2) ->
  disconnect w2 = (Resolved u, w3) ->
  has_on (provider r1) = true ->
  has_removeListener (provider r1) = true ->
  registrations ev (calls w3) = (2 + registrations ev (calls w0))%nat /\
  removals ev (calls w3) = (1 + removals ev (calls w0))%nat.
Proof.
  intros H1 H2 H3 Hon Hrm.
  destruct (connect_registrations _ _ _ _ ev H1) as [Hreg1 Hrem1].
  destruct (connect_registrations _ _ _ _ ev H2) as [Hreg2 Hrem2].
  destruct (disconnect_removals _ _ _ ev H3) as (p & Hp & Hrem3 & Hreg3).
  apply connect_resolved, connect_try_resolved in H1.
  destruct H1 as (? & ? & ? & ? & ? & _ & Hp1 & _).
  apply connect_resolved, connect_try_resolved in H2.
  destruct H2 as (? & ? & ? & ? & ? & _ & Hp2 & Hsame & _).
  specialize (Hsame _ Hp1).
  rewrite Hsame, Hon in Hreg2. rewrite Hon in Hreg1.
  assert (p = provider r1) as ->.
  { destruct (disconnect_keeps_cache _ _ _ _ Hp2 H3) as [Hp3 _].
    rewrite Hsame in Hp3. congruence. }
  rewrite Hrm in Hrem3. lia.
Qed.

(** X13: what [isAuthorized] answers after [connect].  After a [connect]
    that resolved over [LedgerConnect] with the shim-disconnect option
    enabled, [isAuthorized] resolves with [false] and makes no call; after a
    [disconnect] that resolved as well, it asks the transport for its
    accounts again. *)
Theorem isAuthorized_after_connect chainId w r w1 :
  connect chainId w = (Resolved r, w1) ->
  truthy (shimDisconnect options) = true ->
  this_providerImplementation w1 = Some LedgerConnect ->
  isAuthorized w1 = (Resolved false, w1) /\
  (forall u w2,
     disconnect w1 = (Resolved u, w2) ->
     exists b,
       isAuthorized w2
         = (Resolved b,
            set_calls (provider_request eth_accounts :: calls w2) w2)).
Proof.
  intros H%connect_resolved%connect_try_resolved Hshim Himpl.
  destruct H as (impl & pre & a & rest & raw & Himpl' & Hp & _ & _ & _ & _ & _
                 & _ & _ & _ & _ & _ & Hst & Hdef).
  rewrite Himpl in Himpl'. injection Himpl' as <-.
  unfold storage_after_connect in Hst. rewrite Hshim in Hst, Hdef.
  destruct Hdef as [s Hs]; [done|]. rewrite Hs in Hst. simpl in Hst.
  split.
  - unfold isAuthorized, try_catch, bind, gets, ret. simpl.
    by rewrite Hshim, Hst, shim_flag_written.
  - intros u w2 Hd.
    destruct (disconnect_keeps_cache _ _ _ _ Hp Hd) as (Hp2 & _).
    apply disconnect_resolved in Hd.
    destruct Hd as (p & _ & _ & _ & _ & _ & Hst2 & _).
    unfold storage_after_disconnect in Hst2.
    rewrite Hshim, Himpl, Hst in Hst2. simpl in Hst2.
    unfold isAuthorized, try_catch, bind, gets, ret, call. simpl.
    rewrite Hst2, (shim_flag_not_stored _ (flag_stored_delete _)), andb_false_r.
    rewrite (getProvider_cached _ _ Hp2).
    destruct (answer_accounts env (provider_request eth_accounts :: calls w2));
      by eexists.
Qed.

(** X14: [connect] then [disconnect], both resolved, give back the
    [localStorage] they found, when it did not hold the flag. *)
Theorem connect_disconnect_restores_storage chainId w r w1 u w2 :
  connect chainId w = (Resolved r, w1) ->
  disconnect w1 = (Resolved u, w2) ->
  stored shimDisconnectKey (localStorage w) = None ->
  localStorage w2 = localStorage w.
Proof.
  intros H%connect_resolved%connect_try_resolved Hd%disconnect_resolved Hno.
  destruct H as (impl & pre & a & rest & raw & Himpl & _ & _ & _ & _ & _ & _
                 & _ & _ & _ & _ & _ & Hst & _).
  destruct Hd as (p & _ & _ & _ & _ & _ & Hst2 & _).
  rewrite Hst2, Hst, Himpl.
  unfold storage_after_disconnect, storage_after_connect. simpl.
  destruct (truthy (shimDisconnect options) && impl_eqb impl LedgerConnect);
    [|done].
  destruct (localStorage w) as [s|]; [|done]. simpl in *.
  by rewrite delete_insert_id.
Qed.

(** X19: the handler of [accountsChanged] throws exactly when the list is
    not empty and its first address has no checksum form; it throws the
    error of [getAddress] and has emitted nothing. *)
Theorem onAccountsChanged_rejects_iff accounts w e w' :
  onAccountsChanged accounts w = (Rejected e, w') <->
  exists a rest,
    accounts = a :: rest /\ getAddress a = None /\
    e = InvalidAddress (Some a) /\ w' = w.
Proof.
  split.
  - intros H. destruct accounts as [|a rest]; [by run|].
    exists a, rest. run; done.
  - intros (a & rest & -> & Hno & -> & ->). unfold_ops. simpl. by rewrite Hno.
Qed.

(** *** Invariants of every use of an instance *)

Lemma invoke_all_cons i l w :
  invoke_all (i :: l) w = invoke_all l (invoke i w).
Proof. done. Qed.

Lemma invoke_keeps_cache i w p :
  this_provider w = Some p ->
  this_provider (invoke i w) = Some p /\
  resolutions (calls (invoke i w)) = resolutions (calls w).
Proof.
  intros Hp. destruct i; simpl.
  - destruct (connect chainId w) as [o w'] eqn:H.
    by apply (connect_keeps_cache _ _ _ _ _ Hp H).
  - destruct (disconnect w) as [o w'] eqn:H.
    by destruct (disconnect_keeps_cache _ _ _ _ Hp H) as (? & ? & _).
  - by run.
  - by run.
  - by run.
  - by run.
  - by run.
  - done.
  - by run.
Qed.

(** X15: once a handle is cached, every method and handler, in any number
    and order and however each ends, keeps that handle and never asks the
    kit for a handle again. *)
Theorem cached_handle_is_kept l w p :
  this_provider w = Some p ->
  this_provider (invoke_all l w) = Some p /\
  resolutions (calls (invoke_all l w)) = resolutions (calls w).
Proof.
  revert w. induction l as [|i l IH]; intros w Hp; [done|].
  rewrite invoke_all_cons.
  destruct (invoke_keeps_cache i w p Hp) as [Hp' Hres].
  destruct (IH _ Hp') as [Hp'' Hres'].
  split; [done|]. by rewrite Hres'.
Qed.

(** What one invocation can do to [localStorage]: nothing, or write the
    flag, or remove it. *)
Lemma invoke_storage i w :
  localStorage (invoke i w) = localStorage w \/
  exists s,
    localStorage w = Some s /\
    (localStorage (invoke i w) = Some (<[shimDisconnectKey := "true"]> s) \/
     localStorage (invoke i w) = Some (delete shimDisconnectKey s)).
Proof.
  destruct i; simpl.
  - destruct (connect chainId w) as [[r|e] w'] eqn:H; simpl.
    + apply connect_resolved, connect_try_resolved in H.
      destruct H as (impl & ? & ? & ? & ? & _ & _ & _ & _ & _ & _ & _ & _
                     & _ & _ & _ & _ & Hst & Hdef).
      unfold storage_after_connect in Hst.
      destruct (truthy (shimDisconnect options) && impl_eqb impl LedgerConnect);
        [|by left].
      destruct Hdef as [s Hs]; [done|]. right. exists s.
      rewrite Hs in Hst. eauto.
    + left. by run.
  - destruct (disconnect w) as [[u|e] w'] eqn:H; simpl.
    + apply disconnect_resolved in H.
      destruct H as (p & _ & _ & _ & _ & _ & Hst & _).
      unfold storage_after_disconnect in Hst.
      destruct (truthy (shimDisconnect options)
                && impl_is (this_providerImplementation w) LedgerConnect);
        [|by left].
      destruct (localStorage w) as [s|]; [|by left]. right. exists s. eauto.
    + left. by run.
  - left. by run.
  - left. by run.
  - left. by run.
  - left. by run.
  - left. by run.
  - by left.
  - rewrite onDisconnect_result. simpl.
    destruct (truthy (shimDisconnect options)); [|by left].
    destruct (localStorage w) as [s|] eqn:Hs; simpl; [|left; by rewrite Hs].
    right. exists s. eauto.
Qed.

Lemma invoke_all_storage l w :
  (is_Some (localStorage (invoke_all l w)) <-> is_Some (localStorage w)) /\
  (forall key, key <> shimDisconnectKey ->
     stored key (localStorage (invoke_all l w)) = stored key (localStorage w)) /\
  (stored shimDisconnectKey (localStorage (invoke_all l w))
     = stored shimDisconnectKey (localStorage w) \/
   stored shimDisconnectKey (localStorage (invoke_all l w)) = Some "true" \/
   stored shimDisconnectKey (localStorage (invoke_all l w)) = None).
Proof.
  revert w. induction l as [|i l IH]; intros w; [by auto|].
  rewrite invoke_all_cons.
  destruct (IH (invoke i w)) as (Hdef & Hother & Hflag).
  destruct (invoke_storage i w) as [Hsame|(s & Hs & [Hw|Hw])].
  - by rewrite Hsame in *.
  - rewrite Hw, Hs in *. split_and!.
    + rewrite Hdef. split; eauto.
    + intros key Hne. rewrite (Hother key Hne). simpl.
      by rewrite lookup_insert_ne.
    + simpl in *. rewrite lookup_insert_eq in Hflag.
      destruct Hflag as [Hf | [Hf | Hf]]; rewrite Hf; auto.
  - rewrite Hw, Hs in *. split_and!.
    + rewrite Hdef. split; eauto.
    + intros key Hne. rewrite (Hother key Hne). simpl.
      by rewrite lookup_delete_ne.
    + simpl in *. rewrite lookup_delete_eq in Hflag.
      destruct Hflag as [Hf | [Hf | Hf]]; rewrite Hf; auto.
Qed.

(** X16: whatever is done with an instance, [localStorage] stays defined
    or undefined as it was, every key but that of the flag keeps what is
    stored under it, and the flag is as found, or ['true'], or absent. *)
Theorem only_the_flag_is_touched l w :
  (is_Some (localStorage (invoke_all l w)) <-> is_Some (localStorage w)) /\
  (forall key, key <> shimDisconnectKey ->
     stored key (localStorage (invoke_all l w)) = stored key (localStorage w)) /\
  (stored shimDisconnectKey (localStorage (invoke_all l w))
     = stored shimDisconnectKey (localStorage w) \/
   stored shimDisconnectKey (localStorage (invoke_all l w)) = Some "true" \/
   stored shimDisconnectKey (localStorage (invoke_all l w)) = None).
Proof. apply invoke_all_storage. Qed.

Lemma flag_stored_iff_stored storage :
  flag_stored storage <-> is_Some (stored shimDisconnectKey storage).
Proof.
  unfold flag_stored, stored. split.
  - intros (s & v & -> & Hv). simpl. by rewrite Hv.
  - destruct storage as [s|]; simpl; intros [v Hv]; [|done]. by exists s, v.
Qed.

(** X17: where the flag is absent or ['true'] to begin with, it stays so
    whatever is done with the instance: the flag is stored exactly when
    [isAuthorized] reads it as set. *)
Theorem stored_flag_is_truthy l w :
  stored shimDisconnectKey (localStorage w) = None \/
  stored shimDisconnectKey (localStorage w) = Some "true" ->
  (stored shimDisconnectKey (localStorage (invoke_all l w)) = None \/
   stored shimDisconnectKey (localStorage (invoke_all l w)) = Some "true") /\
  (flag_stored (localStorage (invoke_all l w)) <->
   shim_flag (localStorage (invoke_all l w)) = true).
Proof.
  intros Hstart.
  destruct (invoke_all_storage l w) as (_ & _ & Hflag).
  assert (stored shimDisconnectKey (localStorage (invoke_all l w)) = None \/
          stored shimDisconnectKey (localStorage (invoke_all l w))
            = Some "true") as Hend.
  { destruct Hflag as [Hf | [Hf | Hf]]; rewrite Hf; auto. }
  split; [done|]. rewrite flag_stored_iff_stored.
  unfold shim_flag, getItem, stored in *.
  destruct (localStorage (invoke_all l w)) as [s|]; simpl in *.
  - destruct Hend as [Hf | Hf]; rewrite Hf; simpl; split; try done.
  - split; [by intros []|done].
Qed.

Lemma invoke_storage_shim_off i w :
  truthy (shimDisconnect options) = false ->
  localStorage (invoke i w) = localStorage w.
Proof.
  intros Hoff. destruct i; simpl.
  - destruct (connect chainId w) as [[r|e] w'] eqn:H; simpl.
    + apply connect_resolved, connect_try_resolved in H.
      destruct H as (impl & ? & ? & ? & ? & _ & _ & _ & _ & _ & _ & _ & _
                     & _ & _ & _ & _ & Hst & _).
      unfold storage_after_connect in Hst. by rewrite Hoff in Hst.
    + by run.
  - destruct (disconnect w) as [[u|e] w'] eqn:H; simpl.
    + apply disconnect_resolved in H.
      destruct H as (p & _ & _ & _ & _ & _ & Hst & _).
      unfold storage_after_disconnect in Hst. by rewrite Hoff in Hst.
    + by run.
  - by run.
  - by run.
  - by run.
  - by run.
  - by run.
  - done.
  - rewrite onDisconnect_result. simpl. by rewrite Hoff.
Qed.

(** X18: the default that enables the shim is the default of the whole
    [options] parameter.  An instance constructed with an [options] object
    whose [shimDisconnect] is left out, or false, never changes
    [localStorage], whatever is done with it, and its [isAuthorized] asks
    the transport whatever is stored. *)
Theorem options_without_shim o l w :
  options = constructor_options (Some o) ->
  truthy (shimDisconnect o) = false ->
  localStorage (invoke_all l w) = localStorage w /\
  (forall p, this_provider w = Some p ->
     calls (snd (isAuthorized w)) = provider_request eth_accounts :: calls w).
Proof.
  simpl. intros Ho Hoff. rewrite <- Ho in Hoff. split.
  - revert w. induction l as [|i l IH]; intros w; [done|].
    rewrite invoke_all_cons, IH. by apply invoke_storage_shim_off.
  - intros p Hp. unfold isAuthorized, try_catch, bind, gets, ret, call. simpl.
    rewrite Hoff. simpl. rewrite (getProvider_cached _ _ Hp).
    by destruct (answer_accounts env (provider_request eth_accounts :: calls w)).
Qed.

End Methods.

(** ** Runs on the sample settings *)

(** Over the direct bridge, with the option enabled, [connect] resolves and
    the flag is stored. *)
Lemma connect_shim_flag_witness :
  connect (this := Sample.direct) None (fresh Sample.empty_storage)
    = (Resolved (Sample.data 137),
       Sample.after_connect Sample.direct Sample.empty_storage) /\
  localStorage (Sample.after_connect Sample.direct Sample.empty_storage)
    = Some (<[shimDisconnectKey := "true"]> ∅) /\
  flag_stored
    (localStorage (Sample.after_connect Sample.direct Sample.empty_storage)).
Proof.
  assert (connect (this := Sample.direct) None (fresh Sample.empty_storage)
          = (Resolved (Sample.data 137),
             Sample.after_connect Sample.direct Sample.empty_storage)) as Hrun
    by (vm_compute; reflexivity).
  split; [exact Hrun|].
  destruct (connect_shim_flag (this := Sample.direct) _ _ _ _ Hrun)
    as (impl & Himpl & Hdirect & _).
  destruct Hdirect as ((s & Hs & Hw) & Hflag & _).
  - reflexivity.
  - vm_compute in Himpl. congruence.
  - split; [|exact Hflag]. rewrite Hw. injection Hs as <-. reflexivity.
Defined.

(** C1 as stated fails.  With the option enabled, a [connect] over the
    relay-mediated transport resolves and leaves the storage empty: no flag
    is present.  A [connect] over the direct bridge resolves and has
    written the flag to a storage that did not hold it. *)
Lemma connect_shim_flag_as_stated_fails :
  truthy (shimDisconnect (options (Setting := Sample.relay))) = true /\
  connect (this := Sample.relay) None (fresh Sample.empty_storage)
    = (Resolved (Sample.data 1),
       Sample.after_connect Sample.relay Sample.empty_storage) /\
  this_providerImplementation
    (Sample.after_connect Sample.relay Sample.empty_storage)
    = Some WalletConnect /\
  localStorage (Sample.after_connect Sample.relay Sample.empty_storage)
    = Some ∅ /\
  ~ flag_stored
      (localStorage (Sample.after_connect Sample.relay Sample.empty_storage)) /\
  connect (this := Sample.direct) None (fresh Sample.empty_storage)
    = (Resolved (Sample.data 137),
       Sample.after_connect Sample.direct Sample.empty_storage) /\
  this_providerImplementation
    (Sample.after_connect Sample.direct Sample.empty_storage)
    = Some LedgerConnect /\
  ~ flag_stored (localStorage (fresh Sample.empty_storage)) /\
  localStorage (Sample.after_connect Sample.direct Sample.empty_storage)
    = Some {[ shimDisconnectKey := "true" ]}.
Proof.
  assert (localStorage (Sample.after_connect Sample.relay Sample.empty_storage)
          = Some ∅) as Hempty by (vm_compute; reflexivity).
  split_and!; try (vm_compute; reflexivity).
  - intros (s & v & Hs & Hv). rewrite Hempty in Hs. injection Hs as <-.
    by rewrite lookup_empty in Hv.
  - intros (s & v & [= <-] & Hv). by rewrite lookup_empty in Hv.
Qed.

(** C2 as stated fails.  The storage holds the flag; over the
    relay-mediated transport, with the option enabled, [connect] resolves,
    [disconnect] resolves, and the flag is still stored. *)
Lemma disconnect_shim_flag_as_stated_fails :
  truthy (shimDisconnect (options (Setting := Sample.relay))) = true /\
  connect (this := Sample.relay) None (fresh Sample.flagged)
    = (Resolved (Sample.data 1),
       Sample.after_connect Sample.relay Sample.flagged) /\
  disconnect (this := Sample.relay)
      (Sample.after_connect Sample.relay Sample.flagged)
    = (Resolved tt, Sample.after_disconnect Sample.relay Sample.flagged) /\
  localStorage (Sample.after_disconnect Sample.relay Sample.flagged)
    = Some {[ shimDisconnectKey := "true" ]} /\
  flag_stored (localStorage (Sample.after_disconnect Sample.relay Sample.flagged)).
Proof.
  split_and!; try (vm_compute; reflexivity).
  exists {[ shimDisconnectKey := "true" ]}, "true".
  split; [vm_compute; reflexivity | apply lookup_singleton_eq].
Qed.

(** Over the direct bridge the flag written by [connect] is gone after
    [disconnect]. *)
Lemma disconnect_shim_flag_witness :
  disconnect (this := Sample.direct)
      (Sample.after_connect Sample.direct Sample.empty_storage)
    = (Resolved tt, Sample.after_disconnect Sample.direct Sample.empty_storage) /\
  flag_stored
    (localStorage (Sample.after_connect Sample.direct Sample.empty_storage)) /\
  ~ flag_stored
      (localStorage (Sample.after_disconnect Sample.direct Sample.empty_storage)).
Proof.
  assert (disconnect (this := Sample.direct)
            (Sample.after_connect Sample.direct Sample.empty_storage)
          = (Resolved tt,
             Sample.after_disconnect Sample.direct Sample.empty_storage))
    as Hrun by (vm_compute; reflexivity).
  split; [exact Hrun|]. split.
  - exists {[ shimDisconnectKey := "true" ]}, "true".
    split; [vm_compute; reflexivity | apply lookup_singleton_eq].
  - destruct (disconnect_shim_flag (this := Sample.direct) _ _ _ Hrun)
      as (Hdirect & _); [reflexivity|].
    apply Hdirect. vm_compute. reflexivity.
Defined.

(** With the flag stored [isAuthorized] answers [false] and calls nothing;
    without it, it asks for the accounts and answers [true]. *)
Lemma isAuthorized_never_rejects_witness :
  isAuthorized (this := Sample.relay) (fresh Sample.flagged)
    = (Resolved false, fresh Sample.flagged) /\
  isAuthorized (this := Sample.relay) (fresh Sample.empty_storage)
    = (Resolved true,
       set_calls [provider_request eth_accounts; kit_getProvider]
         (set_provider (Some Sample.wallet) (fresh Sample.empty_storage))).
Proof.
  split.
  - destruct (isAuthorized_never_rejects (this := Sample.relay)
                (fresh Sample.flagged)) as (b & w' & Hrun & Hshim & _).
    destruct Hshim as [-> ->]; [reflexivity | vm_compute; reflexivity |].
    exact Hrun.
  - destruct (isAuthorized_never_rejects (this := Sample.relay)
                (fresh Sample.empty_storage)) as (b & w' & Hrun & _ & Hquery).
    destruct Hquery as (Hw' & Htrue & _); [vm_compute; reflexivity|].
    rewrite Hrun. f_equal.
    + f_equal. apply Htrue.
      exists Sample.wallet,
        (set_calls [kit_getProvider]
           (set_provider (Some Sample.wallet) (fresh Sample.empty_storage))),
        "0x5aaeb6053f3e94c9b9a09f33669435e7ef1beaed", [].
      split_and!; [vm_compute; reflexivity | reflexivity | discriminate].
    + rewrite (Hw' Sample.wallet
                 (set_calls [kit_getProvider]
                    (set_provider (Some Sample.wallet)
                       (fresh Sample.empty_storage))));
        [reflexivity | vm_compute; reflexivity].
Defined.



(** Polygon is configured, Goerli is not. *)
Lemma unsupported_iff_not_configured_witness :
  isChainUnsupported (this := Sample.relay) 137 = false /\
  isChainUnsupported (this := Sample.relay) 5 = true /\
  onChainChanged (this := Sample.relay) (RawString "0x5") (fresh None)
    = (Resolved tt,
       set_emitted
         [change None (Some {| data_id := 5; unsupported := true |})]
         (fresh None)) /\
  (unsupported (chain (Sample.data 137)) = true <->
     data_id (chain (Sample.data 137)) ∉ map chain_id Sample.two_chains).
Proof.
  destruct (unsupported_iff_not_configured (this := Sample.direct))
    as (Hiff & Hevent & Hconnect).
  split_and!.
  - apply not_true_iff_false. intros Hno%Hiff. apply Hno.
    vm_compute. apply list_elem_of_In. right. by left.
  - apply Hiff. vm_compute. intros Hin%list_elem_of_In.
    destruct Hin as [|[|[]]]; discriminate.
  - apply (Hevent (RawString "0x5") (fresh None)).
  - apply (Hconnect None (fresh Sample.empty_storage) (Sample.data 137)
             (Sample.after_connect Sample.direct Sample.empty_storage)).
    vm_compute. reflexivity.
Defined.

(** One resolution and four requests over [connect], [disconnect],
    [connect]. *)
Lemma reconnect_resolves_once_witness :
  resolutions (calls (Sample.after_reconnect Sample.relay Sample.empty_storage))
    = 1%nat /\
  requests (calls (Sample.after_reconnect Sample.relay Sample.empty_storage))
    = [eth_chainId; eth_requestAccounts; eth_chainId; eth_requestAccounts].
Proof.
  destruct (reconnect_resolves_once (this := Sample.relay) None None
              (fresh Sample.empty_storage) (Sample.data 1)
              (Sample.after_connect Sample.relay Sample.empty_storage)
              (Resolved tt)
              (Sample.after_disconnect Sample.relay Sample.empty_storage)
              (Resolved (Sample.data 1))
              (Sample.after_reconnect Sample.relay Sample.empty_storage))
    as (_ & Honce & _ & Hfirst & Hnone & Hsecond);
    try (vm_compute; reflexivity).
  split; [exact Honce|].
  destruct (Hsecond (Sample.data 1) eq_refl) as [_ ->].
  rewrite Hnone, Hfirst. reflexivity.
Defined.



(** The account of the result is the checksum form of the address the
    transport answered with. *)
Lemma connect_account_checksummed_witness :
  exists pre a rest,
    calls (Sample.after_connect Sample.relay Sample.empty_storage)
      = provider_request eth_chainId :: provider_request eth_requestAccounts
        :: pre /\
    calls (fresh Sample.empty_storage) `suffix_of` pre /\
    answer_accounts (env (Setting := Sample.relay))
      (provider_request eth_requestAccounts :: pre) = Resolved (a :: rest) /\
    Sample.checksum_of a = Some "0x5aAeb6053F3E94C9b9A09f33669435E7Ef1BeAed".
Proof.
  apply (connect_account_checksummed (this := Sample.relay) None
           (fresh Sample.empty_storage) (Sample.data 1)
           (Sample.after_connect Sample.relay Sample.empty_storage)).
  vm_compute. reflexivity.
Defined.

(** An empty [accountsChanged] keeps the stored flag, the transport's
    [disconnect] event removes it. *)
Lemma only_onDisconnect_clears_flag_witness :
  localStorage
    (snd (onAccountsChanged (this := Sample.direct) [] (fresh Sample.flagged)))
    = Sample.flagged /\
  ~ flag_stored
      (localStorage
         (snd (onDisconnect (this := Sample.direct) (fresh Sample.flagged)))).
Proof.
  destruct (only_onDisconnect_clears_flag (this := Sample.direct))
    as (_ & Haccounts & _ & Hdisconnect).
  split.
  - apply (Haccounts [] (fresh Sample.flagged)).
  - apply (Hdisconnect (fresh Sample.flagged)). reflexivity.
Defined.

(** *** Runs for the further properties *)

(** A first [connect] over the relay: resolution, registrations, requests. *)
Lemma connect_resolved_calls_witness :
  calls (Sample.after_connect Sample.relay Sample.empty_storage)
    = [provider_request eth_chainId; provider_request eth_requestAccounts;
       provider_on disconnect_event; provider_on chainChanged;
       provider_on accountsChanged; kit_getProvider;
       kit_checkSupport None None None].
Proof.
  rewrite (connect_resolved_calls (this := Sample.relay) None
             (fresh Sample.empty_storage) (Sample.data 1)
             (Sample.after_connect Sample.relay Sample.empty_storage));
    [reflexivity | vm_compute; reflexivity].
Defined.

(** The [disconnect] that follows, over the relay, with the cached handle. *)
Lemma disconnect_resolved_calls_witness :
  calls (Sample.after_disconnect Sample.relay Sample.empty_storage)
    = [provider_removeListener disconnect_event;
       provider_removeListener chainChanged;
       provider_removeListener accountsChanged; provider_disconnect]
      ++ calls (Sample.after_connect Sample.relay Sample.empty_storage).
Proof.
  destruct (disconnect_resolved_calls (this := Sample.relay)
              (Sample.after_connect Sample.relay Sample.empty_storage) tt
              (Sample.after_disconnect Sample.relay Sample.empty_storage))
    as (p & Hp & Hcalls); [vm_compute; reflexivity|].
  rewrite Hcalls. vm_compute in Hp. injection Hp as <-. reflexivity.
Defined.

(** The relay refuses: the listeners stay. *)
Lemma disconnect_rejected_frame_witness :
  disconnect (this := Sample.stuck)
      (Sample.after_connect Sample.stuck Sample.flagged)
    = (Rejected (Foreign CodeUndefined true "Error: relay down"),
       Sample.after_disconnect Sample.stuck Sample.flagged) /\
  removals accountsChanged
    (calls (Sample.after_disconnect Sample.stuck Sample.flagged)) = 0%nat /\
  localStorage (Sample.after_disconnect Sample.stuck Sample.flagged)
    = Sample.flagged.
Proof.
  assert (disconnect (this := Sample.stuck)
            (Sample.after_connect Sample.stuck Sample.flagged)
          = (Rejected (Foreign CodeUndefined true "Error: relay down"),
             Sample.after_disconnect Sample.stuck Sample.flagged)) as Hrun
    by (vm_compute; reflexivity).
  split; [exact Hrun|].
  destruct (disconnect_rejected_frame (this := Sample.stuck) _ _ _ Hrun)
    as (Hst & _ & _ & Hrem & _).
  split.
  - rewrite Hrem. vm_compute. reflexivity.
  - rewrite Hst. vm_compute. reflexivity.
Defined.

(** The user declines: the stored flag is as it was. *)
Lemma connect_rejected_frame_witness :
  localStorage (Sample.after_connect Sample.declined Sample.flagged)
    = Sample.flagged /\
  removals disconnect_event
    (calls (Sample.after_connect Sample.declined Sample.flagged)) = 0%nat.
Proof.
  destruct (connect_rejected_frame (this := Sample.declined) None
              (fresh Sample.flagged)
              (Rejected (UserRejectedRequestError
                 (Foreign (CodeNumber 4001) true "Error: User rejected")))
              (Sample.after_connect Sample.declined Sample.flagged))
    as (Hst & Hrem & _); [vm_compute; reflexivity|].
  split.
  - apply (Hst _ eq_refl).
  - rewrite Hrem. reflexivity.
Defined.

(** Over the direct bridge, without [localStorage]. *)
Lemma connect_without_localStorage_witness :
  connect (this := Sample.direct) None (fresh None)
    = (Rejected (ReferenceError "localStorage"),
       set_localStorage None
         (Sample.after_connect Sample.direct Sample.empty_storage)).
Proof.
  apply (connect_without_localStorage (this := Sample.direct) None
           (fresh Sample.empty_storage) (Sample.data 137)
           (Sample.after_connect Sample.direct Sample.empty_storage)).
  vm_compute. reflexivity.
Defined.

(** Two calls where the resolution fails ask the kit twice; two calls where
    it succeeds ask it once. *)
Lemma getProvider_caches_success_only_witness :
  calls (snd (getProvider (this := Sample.unresolved)
                (snd (getProvider (this := Sample.unresolved) (fresh None)))))
    = [kit_getProvider; kit_getProvider] /\
  calls (snd (getProvider (this := Sample.relay)
                (snd (getProvider (this := Sample.relay) (fresh None)))))
    = [kit_getProvider].
Proof.
  split.
  - destruct (getProvider_caches_success_only (this := Sample.unresolved)
                (fresh None)) as [_ Hfail].
    destruct (Hfail (Foreign CodeUndefined true "Error: no provider")
                (snd (getProvider (this := Sample.unresolved) (fresh None))))
      as [_ Hagain]; [vm_compute; reflexivity|].
    rewrite (Hagain tt eq_refl). reflexivity.
  - destruct (getProvider_caches_success_only (this := Sample.relay)
                (fresh None)) as [Hok _].
    destruct (Hok Sample.wallet
                (snd (getProvider (this := Sample.relay) (fresh None))))
      as [_ Hagain]; [vm_compute; reflexivity|].
    rewrite Hagain. reflexivity.
Defined.

(** No account in the answer: the error of [getAddress]. *)
Lemma getAccount_outcomes_witness :
  getAccount (this := Sample.no_account) (fresh Sample.flagged)
    = (Rejected (InvalidAddress None),
       snd (getAccount (this := Sample.no_account) (fresh Sample.flagged))) /\
  localStorage (snd (getAccount (this := Sample.no_account)
                       (fresh Sample.flagged))) = Sample.flagged /\
  exists accounts,
    answer_accounts (env (Setting := Sample.no_account))
      (calls (snd (getAccount (this := Sample.no_account)
                     (fresh Sample.flagged)))) = Resolved accounts /\
    head accounts = None.
Proof.
  assert (getAccount (this := Sample.no_account) (fresh Sample.flagged)
          = (Rejected (InvalidAddress None),
             snd (getAccount (this := Sample.no_account)
                    (fresh Sample.flagged)))) as Hrun
    by (vm_compute; reflexivity).
  split; [exact Hrun|].
  destruct (getAccount_outcomes (this := Sample.no_account) _ _ _ Hrun)
    as (Hst & _ & _ & Hrej).
  split; [exact Hst|].
  destruct (Hrej _ eq_refl) as [H|[H|[H|(accounts & Hans & He & _)]]];
    try (vm_compute in H; discriminate).
  exists accounts. split; [exact Hans|]. by injection He as <-.
Defined.

(** The chain request answered with ["0x1"]. *)
Lemma getChainId_outcomes_witness :
  exists h raw,
    calls (snd (getChainId (this := Sample.relay) (fresh None)))
      = provider_request eth_chainId :: h /\
    answer_chainId (env (Setting := Sample.relay))
      (calls (snd (getChainId (this := Sample.relay) (fresh None))))
      = Resolved raw /\
    1 = Sample.number_or_hex raw.
Proof.
  destruct (getChainId_outcomes (this := Sample.relay) (fresh None)
              (Resolved 1)
              (snd (getChainId (this := Sample.relay) (fresh None))))
    as (_ & _ & Hok & _); [vm_compute; reflexivity|].
  apply (Hok 1 eq_refl).
Defined.

(** The declined request is a user rejection, and its cause has code 4001. *)
Lemma connect_user_rejection_iff_witness :
  exists e,
    connect_try (this := Sample.declined) None (fresh Sample.empty_storage)
      = (Rejected e, Sample.after_connect Sample.declined Sample.empty_storage) /\
    code_of e = CodeNumber 4001 /\
    UserRejectedRequestError
      (Foreign (CodeNumber 4001) true "Error: User rejected")
      = UserRejectedRequestError e.
Proof.
  apply (connect_user_rejection_iff (this := Sample.declined) None
           (fresh Sample.empty_storage)
           (UserRejectedRequestError
              (Foreign (CodeNumber 4001) true "Error: User rejected"))
           (Sample.after_connect Sample.declined Sample.empty_storage));
    [vm_compute; reflexivity | reflexivity].
Defined.

(** On a new instance without a flag [isAuthorized] makes one request,
    [eth_accounts]. *)
Lemma isAuthorized_frame_witness :
  requests (calls (snd (isAuthorized (this := Sample.relay)
                          (fresh Sample.empty_storage))))
    = [eth_accounts] /\
  localStorage (snd (isAuthorized (this := Sample.relay)
                       (fresh Sample.empty_storage)))
    = Sample.empty_storage.
Proof.
  destruct (isAuthorized_frame (this := Sample.relay)
              (fresh Sample.empty_storage) (Resolved true)
              (snd (isAuthorized (this := Sample.relay)
                      (fresh Sample.empty_storage))))
    as (Hst & _ & _ & Hreq); [vm_compute; reflexivity|].
  split; [|exact Hst].
  destruct Hreq as [H|H]; [vm_compute in H; discriminate | exact H].
Defined.

(** The declined [connect] had emitted [connecting]. *)
Lemma connect_emits_connecting_first_witness :
  emitted (Sample.after_connect Sample.declined Sample.empty_storage)
    = [message "connecting"].
Proof.
  destruct (connect_emits_connecting_first (this := Sample.declined) None
              (fresh Sample.empty_storage)
              (Rejected (UserRejectedRequestError
                 (Foreign (CodeNumber 4001) true "Error: User rejected")))
              (Sample.after_connect Sample.declined Sample.empty_storage))
    as [[_ H]|H]; [vm_compute; reflexivity | | exact H].
  vm_compute in H. discriminate.
Defined.

(** Two [connect]s and a [disconnect] over the relay. *)
Lemma reconnect_registers_again_witness :
  registrations accountsChanged
    (calls (snd (disconnect (this := Sample.relay)
                   (snd (connect (this := Sample.relay) None
                           (Sample.after_connect Sample.relay
                              Sample.empty_storage))))))
    = 2%nat /\
  removals accountsChanged
    (calls (snd (disconnect (this := Sample.relay)
                   (snd (connect (this := Sample.relay) None
                           (Sample.after_connect Sample.relay
                              Sample.empty_storage))))))
    = 1%nat.
Proof.
  apply (reconnect_registers_again (this := Sample.relay) None None
           (fresh Sample.empty_storage) (Sample.data 1)
           (Sample.after_connect Sample.relay Sample.empty_storage)
           (Sample.data 1)
           (snd (connect (this := Sample.relay) None
                   (Sample.after_connect Sample.relay Sample.empty_storage)))
           tt
           (snd (disconnect (this := Sample.relay)
                   (snd (connect (this := Sample.relay) None
                           (Sample.after_connect Sample.relay
                              Sample.empty_storage)))))
           accountsChanged);
    vm_compute; reflexivity.
Defined.

(** Over the direct bridge: not authorized after [connect], asking again
    after [disconnect]. *)
Lemma isAuthorized_after_connect_witness :
  isAuthorized (this := Sample.direct)
      (Sample.after_connect Sample.direct Sample.empty_storage)
    = (Resolved false,
       Sample.after_connect Sample.direct Sample.empty_storage) /\
  exists b,
    isAuthorized (this := Sample.direct)
        (Sample.after_disconnect Sample.direct Sample.empty_storage)
      = (Resolved b,
         set_calls
           (provider_request eth_accounts
            :: calls (Sample.after_disconnect Sample.direct
                        Sample.empty_storage))
           (Sample.after_disconnect Sample.direct Sample.empty_storage)).
Proof.
  destruct (isAuthorized_after_connect (this := Sample.direct) None
              (fresh Sample.empty_storage) (Sample.data 137)
              (Sample.after_connect Sample.direct Sample.empty_storage))
    as [Hno Hagain]; try (vm_compute; reflexivity).
  split; [exact Hno|].
  apply (Hagain tt). vm_compute. reflexivity.
Defined.

(** Over the direct bridge the storage in use is given back. *)
Lemma connect_disconnect_restores_storage_witness :
  localStorage (Sample.after_disconnect Sample.direct Sample.themed)
    = Sample.themed.
Proof.
  apply (connect_disconnect_restores_storage (this := Sample.direct) None
           (fresh Sample.themed) (Sample.data 137)
           (Sample.after_connect Sample.direct Sample.themed) tt
           (Sample.after_disconnect Sample.direct Sample.themed));
    vm_compute; reflexivity.
Defined.

(** A session after a first [connect]: the handle stays, no resolution. *)
Lemma cached_handle_is_kept_witness :
  this_provider
    (invoke_all (this := Sample.relay) Sample.session
       (Sample.after_connect Sample.relay Sample.empty_storage))
    = Some Sample.wallet /\
  resolutions
    (calls (invoke_all (this := Sample.relay) Sample.session
              (Sample.after_connect Sample.relay Sample.empty_storage)))
    = 1%nat.
Proof.
  destruct (cached_handle_is_kept (this := Sample.relay) Sample.session
              (Sample.after_connect Sample.relay Sample.empty_storage)
              Sample.wallet) as [Hp Hres]; [vm_compute; reflexivity|].
  split; [exact Hp|]. rewrite Hres. vm_compute. reflexivity.
Defined.

(** A session over the direct bridge leaves the other key alone. *)
Lemma only_the_flag_is_touched_witness :
  stored "theme"
    (localStorage (invoke_all (this := Sample.direct) Sample.session
                     (fresh Sample.themed)))
    = Some "dark".
Proof.
  destruct (only_the_flag_is_touched (this := Sample.direct) Sample.session
              (fresh Sample.themed)) as (_ & Hother & _).
  rewrite (Hother "theme"); [vm_compute; reflexivity | discriminate].
Defined.

(** After a [connect] over the direct bridge the flag is ['true']. *)
Lemma stored_flag_is_truthy_witness :
  flag_stored
    (localStorage (invoke_all (this := Sample.direct) [call_connect None]
                     (fresh Sample.empty_storage))) <->
  shim_flag
    (localStorage (invoke_all (this := Sample.direct) [call_connect None]
                     (fresh Sample.empty_storage))) = true.
Proof.
  apply (stored_flag_is_truthy (this := Sample.direct) [call_connect None]
           (fresh Sample.empty_storage)).
  left. vm_compute. reflexivity.
Defined.

(** With the options of the README a session over the direct bridge
    writes no flag, and leaves one it finds. *)
Lemma options_without_shim_witness :
  localStorage (invoke_all (this := Sample.readme) Sample.session
                  (fresh Sample.empty_storage))
    = Sample.empty_storage /\
  localStorage (invoke_all (this := Sample.readme) Sample.session
                  (fresh Sample.flagged))
    = Sample.flagged.
Proof.
  split.
  - apply (options_without_shim (this := Sample.readme) Sample.readme_options
             Sample.session (fresh Sample.empty_storage)); reflexivity.
  - apply (options_without_shim (this := Sample.readme) Sample.readme_options
             Sample.session (fresh Sample.flagged)); reflexivity.
Defined.

(** An address too short to have a checksum form. *)
Lemma onAccountsChanged_rejects_iff_witness :
  onAccountsChanged (this := Sample.relay) ["0x123"] (fresh None)
    = (Rejected (InvalidAddress (Some "0x123")), fresh None).
Proof.
  apply (onAccountsChanged_rejects_iff (this := Sample.relay)).
  exists "0x123", []. split_and!; reflexivity.
Defined.

End LedgerConnector.
